(** * Chatbot admission control and conversation routing

    Shallow embedding of [ChatbotService] and [PropertyManagementAgent]
    (src/ai-services/src/chatbot/intelligent_agent.py) and of the
    [POST /chatbot/chat] and websocket routes
    (src/ai-services/src/api/routes/chatbot.py).

    The Redis client is a map from keys to integer entries with an
    optional absolute expiry time; the database pool is an optional map
    from conversation ids to message lists (the code never writes it);
    [logger.error] appends to a log.  Python exceptions are the left
    branch of a state-and-exception monad. *)

From stdpp Require Import base gmap strings list pretty.
From Stdlib Require Import ZArith String QArith.

Local Open Scope Z_scope.

(** ** Values *)

(** JSON-like values held by the Python result dicts. *)
Inductive JVal :=
| JNull
| JBool (b : bool)
| JStr (s : string).

(** A Python [Dict[str, Any]] with insertion order kept. *)
Definition Dict := list (string * JVal).

Fixpoint dict_get (d : Dict) (k : string) : option JVal :=
  match d with
  | [] => None
  | (k', v) :: d' => if String.eqb k k' then Some v else dict_get d' k
  end.

(** Python truthiness of an [Optional[str]]: [None] and the empty string are falsy. *)
Definition truthy_str (o : option string) : bool :=
  match o with
  | Some s => negb (String.eqb s EmptyString)
  | None => false
  end.

(** [Optional[str]] as a JSON value. *)
Definition opt_jval (o : option string) : JVal :=
  match o with Some s => JStr s | None => JNull end.

(** The double-quote character. *)
Definition dq : string := String (Ascii.ascii_of_nat 34) EmptyString.

(** [json.dumps] of a flat dict (string escaping not modelled). *)
Definition json_val (v : JVal) : string :=
  match v with
  | JNull => "null"
  | JBool true => "true"
  | JBool false => "false"
  | JStr s => String.append dq (String.append s dq)
  end.

Fixpoint json_items (d : Dict) : string :=
  match d with
  | [] => EmptyString
  | [(k, v)] => String.append (json_val (JStr k)) (String.append ": " (json_val v))
  | (k, v) :: d' =>
      String.append (json_val (JStr k))
        (String.append ": " (String.append (json_val v) (String.append ", " (json_items d'))))
  end.

Definition json_dumps (d : Dict) : string :=
  String.append "{" (String.append (json_items d) "}").

(** ** World state *)

(** A Redis entry: the integer value and the absolute expiry time, if a
    TTL is set. *)
Record Entry := mkEntry { count : Z; expiry : option Z }.

(** One persisted turn: (user message, response, timestamp). *)
Definition Turn := (string * string * string)%type.

Record World := mkWorld {
  redis : option (gmap string Entry);     (** [None]: no Redis client *)
  db : option (gmap string (list Turn));  (** [None]: pool not initialized *)
  log : list string;                      (** [logger.error] lines *)
  calls : list (string * string)          (** delegate invocations: (input, user_id) *)
}.

Definition set_redis (w : World) (r : gmap string Entry) : World :=
  mkWorld (Some r) (db w) (log w) (calls w).

Definition add_log (w : World) (m : string) : World :=
  mkWorld (redis w) (db w) (log w ++ [m]) (calls w).

Definition add_call (w : World) (c : string * string) : World :=
  mkWorld (redis w) (db w) (log w) (calls w ++ [c]).

(** ** State and exception monad *)

(** [inl e]: a Python exception with [str(e) = e] is propagating. *)
Definition M (A : Type) := World -> (string + A) * World.

Definition ret {A} (a : A) : M A := fun w => (inr a, w).

Definition bind {A B} (m : M A) (k : A -> M B) : M B :=
  fun w => match m w with
           | (inl e, w') => (inl e, w')
           | (inr a, w') => k a w'
           end.

Definition raise {A} (e : string) : M A := fun w => (inl e, w).

(** [try: m except Exception as e: h(e)] *)
Definition try_except {A} (m : M A) (h : string -> M A) : M A :=
  fun w => match m w with
           | (inl e, w') => h e w'
           | (inr a, w') => (inr a, w')
           end.

Definition get_world : M World := fun w => (inr w, w).
Definition modify (f : World -> World) : M unit := fun w => (inr tt, f w).

Definition log_error (m : string) : M unit := modify (fun w => add_log w m).

Notation "x <- m ;; k" := (bind m (fun x => k))
  (at level 100, m at next level, right associativity).
Notation "m ;;; k" := (bind m (fun _ => k))
  (at level 100, right associativity).

(** ** Redis client *)

(** Which Redis round trips raise (connection loss, timeouts, ...). *)
Record Faults := mkFaults { get_raises : bool; incr_raises : bool; expire_raises : bool }.

Definition no_faults := mkFaults false false false.

Definition redis_error : string := "Error connecting to Redis".

(** A key with a TTL is gone once the time is past its expiry (Redis
    expires a key when now > expiry). *)
Definition live (now : Z) (e : Entry) : bool :=
  match expiry e with
  | Some t => now <=? t
  | None => true
  end.

Definition live_lookup (now : Z) (r : gmap string Entry) (k : string) : option Entry :=
  match r !! k with
  | Some e => if live now e then Some e else None
  | None => None
  end.

Definition store_of (w : World) : gmap string Entry :=
  match redis w with Some r => r | None => ∅ end.

(** [GET key] *)
Definition r_get (f : Faults) (now : Z) (k : string) : M (option Z) :=
  if get_raises f then raise redis_error
  else w <- get_world ;; ret (option_map count (live_lookup now (store_of w) k)).

(** [INCR key]: a missing or expired key starts at 0 without a TTL;
    an existing key keeps its TTL. *)
Definition r_incr (f : Faults) (now : Z) (k : string) : M Z :=
  if incr_raises f then raise redis_error
  else w <- get_world ;;
       let r := store_of w in
       let e' := match live_lookup now r k with
                 | Some e => mkEntry (count e + 1) (expiry e)
                 | None => mkEntry 1 None
                 end in
       modify (fun w => set_redis w (<[k := e']> r)) ;;; ret (count e').

(** [EXPIRE key seconds]: sets the TTL of a live key, always replacing
    the previous one; no effect on a missing key. *)
Definition r_expire (f : Faults) (now : Z) (k : string) (secs : Z) : M bool :=
  if expire_raises f then raise redis_error
  else w <- get_world ;;
       let r := store_of w in
       match live_lookup now r k with
       | Some e =>
           modify (fun w => set_redis w (<[k := mkEntry (count e) (Some (now + secs))]> r)) ;;;
           ret true
       | None => ret false
       end.

(** ** PropertyManagementAgent and ChatbotService *)

(** Outcome of [agent_executor.arun]: a response text or a raised
    exception (timeouts included) with its [str(e)]. *)
Inductive DelegateOutcome :=
| DOk (response : string)
| DRaise (err : string).

Definition fallback_response : string :=
  "I apologize, but I encountered an error processing your request. Please try again or contact support if the issue persists.".

Definition rate_limited_response : string :=
  "You're sending messages too quickly. Please wait a moment before trying again.".

Definition pool_error : string := "Database pool not initialized".

Definition rate_limit_key (user_id : string) : string := String.append "rate_limit:" user_id.

(** [async with get_db_session() as session: pass]: raises when the pool
    is not initialized, otherwise does nothing. *)
Definition db_session_pass : M unit :=
  w <- get_world ;;
  match db w with
  | None => raise pool_error
  | Some _ => ret tt
  end.

(** [_load_conversation_history] *)
Definition load_conversation_history (conversation_id : string) : M unit :=
  try_except db_session_pass
    (fun e => log_error (String.append "Error loading conversation history: " e)).

(** [_save_conversation]: the body inside the session is [pass]. *)
Definition save_conversation (user_id : string) (conversation_id : option string)
    (user_message ai_response : string) (context : option Dict) : M unit :=
  try_except db_session_pass
    (fun e => log_error (String.append "Error saving conversation: " e)).

(** [get_suggested_actions]: returns the empty list. *)
Definition get_suggested_actions (user_id : string) : M (list Dict) :=
  try_except (ret [])
    (fun e => log_error (String.append "Error getting suggested actions: " e) ;;; ret []).

(** The input text handed to the delegate ([if context:] is false for
    [None] and for the empty dict). *)
Definition enhanced_input (message : string) (context : option Dict) : string :=
  match context with
  | Some ((_ :: _) as c) =>
      String.append "Context: " (String.append (json_dumps c)
        (String.append (String (Ascii.ascii_of_nat 10) EmptyString)
           (String.append "User message: " message)))
  | _ => message
  end.

Definition success_dict (response : string) (conversation_id : option string) (ts : string) : Dict :=
  [("response", JStr response); ("conversation_id", opt_jval conversation_id);
   ("timestamp", JStr ts); ("status", JStr "success")].

Definition error_dict (e : string) : Dict :=
  [("response", JStr fallback_response); ("error", JStr e); ("status", JStr "error")].

Definition rate_limited_dict : Dict :=
  [("response", JStr rate_limited_response); ("status", JStr "rate_limited")].

Section Service.

(** The message-processing delegate [agent_executor.arun(input, user_id)]. *)
Variable delegate : string -> string -> DelegateOutcome.

Definition arun (input user_id : string) : M string :=
  modify (fun w => add_call w (input, user_id)) ;;;
  match delegate input user_id with
  | DOk r => ret r
  | DRaise e => raise e
  end.

(** [PropertyManagementAgent.process_message]; [ts] is the value of
    [datetime.utcnow().isoformat()]. *)
Definition process_message (message user_id : string) (conversation_id : option string)
    (context : option Dict) (ts : string) : M Dict :=
  try_except
    ((if truthy_str conversation_id
      then load_conversation_history (default EmptyString conversation_id)
      else ret tt) ;;;
     response <- arun (enhanced_input message context) user_id ;;
     save_conversation user_id conversation_id message response context ;;;
     ret (success_dict response conversation_id ts))
    (fun e => log_error (String.append "Error processing message: " e) ;;; ret (error_dict e)).

(** [ChatbotService._is_rate_limited] *)
Definition is_rate_limited (f : Faults) (now : Z) (user_id : string) : M bool :=
  w <- get_world ;;
  match redis w with
  | None => ret false
  | Some _ =>
      try_except
        (c <- r_get f now (rate_limit_key user_id) ;;
         ret (30 <? default 0 c))
        (fun _ => ret false)
  end.

(** [ChatbotService._update_rate_limit] *)
Definition update_rate_limit (f : Faults) (now : Z) (user_id : string) : M unit :=
  w <- get_world ;;
  match redis w with
  | None => ret tt
  | Some _ =>
      try_except
        (_ <- r_incr f now (rate_limit_key user_id) ;;
         _ <- r_expire f now (rate_limit_key user_id) 60 ;;
         ret tt)
        (fun e => log_error (String.append "Error updating rate limit: " e))
  end.

(** [ChatbotService.send_message] *)
Definition send_message (f : Faults) (now : Z) (ts : string) (user_id message : string)
    (conversation_id : option string) (context : option Dict) : M Dict :=
  limited <- is_rate_limited f now user_id ;;
  if limited then ret rate_limited_dict
  else
    result <- process_message message user_id conversation_id context ts ;;
    update_rate_limit f now user_id ;;;
    ret result.

(** ** Routes *)

(** The pydantic [ChatResponse] model. *)
Record ChatResponse := mkChatResponse {
  cr_response : string;
  cr_conversation_id : option string;
  cr_timestamp : string;
  cr_status : string;
  cr_suggestions : option (list string)
}.

Inductive RouteResult :=
| Http200 (r : ChatResponse)
| Http500 (detail : string).

(** [result.get(key)] read as an [Optional[str]]; [None] when absent or
    null.  A non-string value fails the pydantic validation. *)
Definition get_opt_str (d : Dict) (k : string) : option (option string) :=
  match dict_get d k with
  | None | Some JNull => Some None
  | Some (JStr s) => Some (Some s)
  | Some (JBool _) => None
  end.

(** [result[key]] read as a [str]: [KeyError] or validation error otherwise. *)
Definition get_str (d : Dict) (k : string) : option string :=
  match dict_get d k with
  | Some (JStr s) => Some s
  | _ => None
  end.

(** [[s.get("title") for s in suggestions[:3]]] validated as [List[str]]. *)
Fixpoint titles (l : list Dict) : option (list string) :=
  match l with
  | [] => Some []
  | s :: l' =>
      match get_str s "title", titles l' with
      | Some t, Some ts => Some (t :: ts)
      | _, _ => None
      end
  end.

(** Building [ChatResponse]; [None] stands for a raised exception. *)
Definition build_chat_response (result : Dict) (suggestions : option (list Dict)) (ts : string)
    : option ChatResponse :=
  match get_str result "response", get_opt_str result "conversation_id",
        (match dict_get result "timestamp" with
         | None => Some ts
         | Some (JStr s) => Some s
         | Some _ => None
         end),
        get_str result "status",
        (match suggestions with
         | Some ((_ :: _) as l) => option_map Some (titles (firstn 3 l))
         | _ => Some None
         end) with
  | Some response, Some cid, Some timestamp, Some status, Some sugg =>
      Some (mkChatResponse response cid timestamp status sugg)
  | _, _, _, _, _ => None
  end.

(** [POST /chatbot/chat] for the user [current_user["id"] = user_id];
    [ts] stands for both [utcnow()] readings (in [process_message] and
    the route's default timestamp). *)
Definition chat_route (f : Faults) (now : Z) (ts : string) (user_id message : string)
    (conversation_id : option string) (context : option Dict) : M RouteResult :=
  try_except
    (result <- send_message f now ts user_id message conversation_id context ;;
     suggestions <- (if negb (truthy_str conversation_id)
                     then s <- get_suggested_actions user_id ;; ret (Some s)
                     else ret None) ;;
     match build_chat_response result suggestions ts with
     | Some r => ret (Http200 r)
     | None => raise "validation error"
     end)
    (fun e => log_error (String.append "Error in chat endpoint: " e) ;;;
              ret (Http500 "Failed to process message")).

(** One turn of the websocket loop: the parsed frame's fields go to
    [send_message] and the result dict is what [json.dumps] sends back. *)
Definition websocket_turn (f : Faults) (now : Z) (ts : string) (user_id : string)
    (message : string) (conversation_id : option string) (context : option Dict) : M Dict :=
  send_message f now ts user_id message conversation_id context.

(** An inbound websocket frame after [json.loads(data)] and the
    [message_data.get(...)] calls: the three fields, or the text of the
    exception raised on the way (malformed JSON, a non-object payload). *)
Inductive Frame :=
| FrameText (message : string) (conversation_id : option string) (context : option Dict)
| FrameBad (err : string).

(** A frame that parses as JSON. *)
Definition well_formed (fr : Frame) : bool :=
  match fr with FrameText _ _ _ => true | FrameBad _ => false end.

(** The [while True] loop of [websocket_chat]: one [send_message] and one
    [send_text] per frame.  Returns the frames sent and the exception that
    left the loop ([None]: the client disconnected, which is
    [WebSocketDisconnect] raised by [receive_text] once the frames run out). *)
Fixpoint websocket_loop (f : Faults) (now : Z) (ts : string) (user_id : string)
    (frames : list Frame) (sent : list Dict) : M (list Dict * option string) :=
  match frames with
  | [] => ret (sent, None)
  | FrameBad e :: _ => ret (sent, Some e)
  | FrameText m c x :: frames' =>
      r <- try_except (res <- send_message f now ts user_id m c x ;; ret (inr res))
                      (fun e => ret (inl e)) ;;
      match r with
      | inl e => ret (sent, Some e)
      | inr res => websocket_loop f now ts user_id frames' (sent ++ [res])
      end
  end.

(** [websocket_chat]: the frames sent, and the close code when the generic
    handler closed the socket ([None]: disconnect, only logged at info). *)
Definition websocket_chat (f : Faults) (now : Z) (ts : string) (user_id : string)
    (frames : list Frame) : M (list Dict * option Z) :=
  p <- websocket_loop f now ts user_id frames [] ;;
  match p with
  | (sent, None) => ret (sent, None)
  | (sent, Some e) =>
      log_error (String.append "WebSocket error for user "
                   (String.append user_id (String.append ": " e))) ;;;
      ret (sent, Some 1000)
  end.

(** [GET /chatbot/health] *)
Definition chatbot_health (f : Faults) (now : Z) (ts : string) : M Dict :=
  try_except
    (test_result <- send_message f now ts "health_check" "ping" None (Some [("test", JBool true)]) ;;
     match dict_get test_result "status" with
     | Some st => ret [("status", JStr "healthy"); ("timestamp", JStr ts); ("chatbot_status", st)]
     | None => raise "'status'"
     end)
    (fun e => log_error (String.append "Chatbot health check failed: " e) ;;;
              ret [("status", JStr "unhealthy"); ("error", JStr e); ("timestamp", JStr ts)]).

End Service.

(** [ChatbotService.get_conversation_history]: the body returns [[]]. *)
Definition get_conversation_history (user_id conversation_id : string) (limit : Z) : M (list Dict) :=
  try_except (ret [])
    (fun e => log_error (String.append "Error getting conversation history: " e) ;;; ret []).

(** The pydantic [ConversationHistoryResponse] model. *)
Record HistoryResponse := mkHistoryResponse {
  hr_messages : list Dict;
  hr_total_count : Z;
  hr_conversation_id : string
}.

(** [GET /chatbot/conversations/{conversation_id}/history]: [Some r] is
    the 200 answer, [None] the 500 one. *)
Definition history_route (user_id conversation_id : string) (limit : Z) : M (option HistoryResponse) :=
  try_except
    (messages <- get_conversation_history user_id conversation_id limit ;;
     ret (Some (mkHistoryResponse messages (Z.of_nat (List.length messages)) conversation_id)))
    (fun e => log_error (String.append "Error getting conversation history: " e) ;;; ret None).

(** [n] messages from [user_id] at time [now], no Redis faults; the
    replies in order. *)
Fixpoint burst (d : string -> string -> DelegateOutcome) (n : nat) (now : Z) (ts : string)
    (user_id message : string) (cid : option string) (ctx : option Dict) (w : World)
    : list Dict * World :=
  match n with
  | O => ([], w)
  | S n' =>
      let '(res, w1) := send_message d no_faults now ts user_id message cid ctx w in
      let r := match res with inr r => r | inl e => [("exception", JStr e)] end in
      let '(l, w2) := burst d n' now ts user_id message cid ctx w1 in
      (r :: l, w2)
  end.

(** Whether a reply dict has status ["rate_limited"]. *)
Definition is_rejection (d : Dict) : bool :=
  match dict_get d "status" with
  | Some (JStr s) => String.eqb s "rate_limited"
  | _ => false
  end.

(** The live counter of a user. *)
Definition counter (now : Z) (user_id : string) (w : World) : Z :=
  default 0 (option_map count (live_lookup now (store_of w) (rate_limit_key user_id))).

(** ** PropertySearchTool, PropertyBookingTool and PropertyDetailsTool
    (src/ai-services/src/chatbot/tools/property_tools.py)

    A Python float is a rational, an infinity or NaN ([-0.0] is the
    rational 0: it is falsy and compares as [0.0] does); [str.lower] lowers the ASCII letters and leaves every other
    byte of the UTF-8 text as it is.  The literal texts keep the bytes of
    the source file. *)

(** A mock property of [_search_properties]. *)
Record Property := mkProperty {
  p_id : string; p_title : string; p_address : string; p_price : Z;
  p_bedrooms : Z; p_bathrooms : Z; p_square_feet : Z; p_amenities : list string
}.

Definition mock_properties : list Property :=
  [mkProperty "prop_123" "Modern Downtown Apartment" "123 Main St, Downtown" 2500 2 2 1200
     ["parking"; "gym"; "pool"; "pet_friendly"];
   mkProperty "prop_456" "Cozy Suburban House" "456 Oak Ave, Suburbs" 3200 3 2 1800
     ["garden"; "garage"; "fireplace"]].

(** A Python float: finite (as a rational), an infinity, or NaN. *)
Inductive PyFloat := PFin (q : Q) | PInf | PNegInf | PNaN.

(** [bool(x)]: only a zero is falsy; NaN and the infinities are truthy. *)
Definition float_truthy (x : PyFloat) : bool :=
  match x with PFin q => negb (Qeq_bool q 0) | _ => true end.

(** [n < x] and [n > x] for an int [n] and a float [x]; every comparison
    with NaN is [False]. *)
Definition int_lt_float (n : Z) (x : PyFloat) : bool :=
  match x with
  | PFin q => negb (Qle_bool q (inject_Z n))
  | PInf => true
  | PNegInf | PNaN => false
  end.

Definition int_gt_float (n : Z) (x : PyFloat) : bool :=
  match x with
  | PFin q => negb (Qle_bool (inject_Z n) q)
  | PNegInf => true
  | PInf | PNaN => false
  end.

(** The [search_params] dict: [None] is a missing key. *)
Record SearchParams := mkSearchParams {
  sp_location : option string; sp_property_type : option string;
  sp_min_price : option PyFloat; sp_max_price : option PyFloat;
  sp_bedrooms : option Z; sp_bathrooms : option Z; sp_amenities : option (list string)
}.

Definition nl : string := String (Ascii.ascii_of_nat 10) EmptyString.

(** [str.lower] on one byte. *)
Definition ascii_lower (a : Ascii.ascii) : Ascii.ascii :=
  let n := Ascii.nat_of_ascii a in
  if (Nat.leb 65 n && Nat.leb n 90)%bool then Ascii.ascii_of_nat (n + 32) else a.

Fixpoint lower (s : string) : string :=
  match s with
  | EmptyString => EmptyString
  | String a s' => String (ascii_lower a) (lower s')
  end.

(** [needle in hay] for strings. *)
Fixpoint contains (needle hay : string) : bool :=
  String.prefix needle hay ||
  match hay with
  | EmptyString => false
  | String _ hay' => contains needle hay'
  end.

Definition z_truthy (x : Z) : bool := negb (x =? 0).
Definition str_truthy (s : string) : bool := negb (String.eqb s EmptyString).

(** The body of the loop of [_search_properties]: [false] when one of
    the [continue] tests fires. *)
Definition passes (sp : SearchParams) (p : Property) : bool :=
  if match sp_min_price sp with
     | Some x => float_truthy x && int_lt_float (p_price p) x
     | None => false
     end then false
  else if match sp_max_price sp with
          | Some x => float_truthy x && int_gt_float (p_price p) x
          | None => false
          end then false
  else if match sp_bedrooms sp with
          | Some b => z_truthy b && negb (p_bedrooms p =? b)
          | None => false
          end then false
  else if match sp_location sp with
          | Some l => str_truthy l && negb (contains (lower l) (lower (p_address p)))
          | None => false
          end then false
  else true.

(** [PropertySearchTool._search_properties] *)
Definition search_properties (sp : SearchParams) : list Property :=
  List.filter (passes sp) mock_properties.

(** The [search_params] dict [PropertySearchTool._run] builds. *)
Definition build_search_params (location property_type : option string)
    (min_price max_price : option PyFloat) (bedrooms bathrooms : option Z)
    (amenities : option (list string)) : SearchParams :=
  mkSearchParams
    (match location with Some l => if str_truthy l then Some l else None | None => None end)
    (match property_type with Some t => if str_truthy t then Some t else None | None => None end)
    min_price max_price bedrooms bathrooms
    (match amenities with Some (_ :: _) => amenities | _ => None end).

(** [f"{n:,}"] for an integer: digits grouped by three with commas. *)
Fixpoint commas_rev (l : list Ascii.ascii) : list Ascii.ascii :=
  match l with
  | a :: b :: c :: ((_ :: _) as rest) => a :: b :: c :: Ascii.ascii_of_nat 44 :: commas_rev rest
  | _ => l
  end.

Definition with_commas (n : Z) : string :=
  let digits := list_ascii_of_string (pretty (Z.abs n)) in
  String.append (if n <? 0 then "-" else EmptyString)
    (string_of_list_ascii (rev (commas_rev (rev digits)))).

(** The lines [_run] writes for one property. *)
Definition format_property (p : Property) : string :=
  String.concat EmptyString
    (["ðŸ  **"; p_title p; "**"; nl;
      "ðŸ“ "; p_address p; nl;
      "ðŸ’° $"; with_commas (p_price p); "/month"; nl;
      "ðŸ›ï¸ "; pretty (p_bedrooms p); " bed, "; pretty (p_bathrooms p); " bath"; nl;
      "ðŸ“ "; pretty (p_square_feet p); " sq ft"; nl] ++
     (match p_amenities p with
      | [] => []
      | am => ["âœ¨ Amenities: "; String.concat ", " (firstn 3 am); nl]
      end) ++
     ["ðŸ†” Property ID: "; p_id p; nl; nl]).

Definition no_properties_message : string :=
  "No properties found matching your criteria. Try adjusting your search parameters.".

(** [PropertySearchTool._run] (its [except] branch is unreachable: nothing
    in the body raises on these inputs). *)
Definition property_search_run (location property_type : option string)
    (min_price max_price : option PyFloat) (bedrooms bathrooms : option Z)
    (amenities : option (list string)) : string :=
  let properties := search_properties
    (build_search_params location property_type min_price max_price bedrooms bathrooms amenities) in
  match properties with
  | [] => no_properties_message
  | _ =>
      String.concat EmptyString
        ([String.append "Found " (String.append (pretty (Z.of_nat (List.length properties)))
            (String.append " properties:" (String.append nl nl)))] ++
         map format_property (firstn 5 properties) ++
         (if (5 <? Z.of_nat (List.length properties))
          then [String.concat EmptyString
                  ["... and "; pretty (Z.of_nat (List.length properties) - 5);
                   " more properties. Use more specific criteria to narrow results."]]
          else []))
  end.

(** A property of [_get_property_info]. *)
Record PropertyInfo := mkPropertyInfo {
  pi_id : string; pi_title : string; pi_address : string; pi_available : bool
}.

(** [PropertyBookingTool._get_property_info] *)
Definition get_property_info (property_id : string) : option PropertyInfo :=
  if String.eqb property_id "prop_123" then
    Some (mkPropertyInfo "prop_123" "Modern Downtown Apartment" "123 Main St, Downtown" true)
  else if String.eqb property_id "prop_456" then
    Some (mkPropertyInfo "prop_456" "Cozy Suburban House" "456 Oak Ave, Suburbs" true)
  else None.

Definition booking_header : string := "âœ… **Booking Request Submitted Successfully!**".

(** The confirmation text after [.strip()]; the template's first and last
    characters are fixed, so stripping only removes the leading newline
    and the trailing indentation. *)
Definition booking_confirmation (pi : PropertyInfo)
    (booking_type preferred_date preferred_time booking_id : string) : string :=
  String.concat EmptyString
    [booking_header;
     nl;
     nl;
     "ðŸ“‹ **Booking Details:**";
     nl;
     "ðŸ  Property: ";
     pi_title pi;
     nl;
     "ðŸ“ Address: ";
     pi_address pi;
     nl;
     "ðŸ“… Requested Date: ";
     preferred_date;
     nl;
     "ðŸ• Requested Time: ";
     preferred_time;
     nl;
     "ðŸ“ Type: ";
     booking_type;
     nl;
     "ðŸ†” Booking ID: ";
     booking_id;
     nl;
     nl;
     "ðŸ“§ You'll receive a confirmation email once the booking is approved by the property manager.";
     nl;
     "ðŸ“± You can track your booking status in the app or ask me for updates.";
     nl;
     nl;
     "Need to make changes? Just let me know!"].

Definition booking_required_message : string :=
  "Error: Property ID and User ID are required for booking.".

(** [PropertyBookingTool._run]; [uuid_hex] is [uuid.uuid4().hex], and
    [_create_booking] always succeeds. *)
Definition property_booking_run (property_id user_id booking_type preferred_date preferred_time : string)
    (notes : option string) (uuid_hex : string) : string :=
  if negb (str_truthy property_id) || negb (str_truthy user_id) then booking_required_message
  else match get_property_info property_id with
       | None => String.concat EmptyString ["Error: Property with ID "; property_id; " not found."]
       | Some pi =>
           booking_confirmation pi booking_type preferred_date preferred_time
             (String.append "book_" (String.substring 0 8 uuid_hex))
       end.

(** A property of [_get_detailed_property_info]; [None] is a missing key. *)
Record DetailedProperty := mkDetailedProperty {
  dp_id : string; dp_title : string; dp_address : string; dp_price : Z;
  dp_bedrooms : Z; dp_bathrooms : Z; dp_square_feet : Z;
  dp_year_built : option Z; dp_parking : option string; dp_amenities : option (list string);
  dp_description : option string; dp_available : option bool
}.

(** [PropertyDetailsTool._get_detailed_property_info] *)
Definition get_detailed_property_info (property_id : string) : option DetailedProperty :=
  if String.eqb property_id "prop_123" then
    Some (mkDetailedProperty "prop_123" "Modern Downtown Apartment" "123 Main St, Downtown"
            2500 2 2 1200 (Some 2020) (Some "1 covered space")
            (Some ["In-unit laundry"; "Dishwasher"; "Air conditioning";
                   "Balcony"; "Gym access"; "Rooftop terrace"; "Pet friendly"])
            (Some "Beautiful modern apartment in the heart of downtown with stunning city views. Features high-end finishes, stainless steel appliances, and access to building amenities.")
            (Some true))
  else None.

(** The details text after [.strip()]. *)
Definition details_text (pd : DetailedProperty) : string :=
  String.concat EmptyString
    ["ðŸ  **";
     dp_title pd;
     "**";
     nl;
     "ðŸ“ **Address:** ";
     dp_address pd;
     nl;
     "ðŸ’° **Price:** $";
     with_commas (dp_price pd);
     "/month";
     nl;
     "ðŸ›ï¸ **Bedrooms:** ";
     pretty (dp_bedrooms pd);
     nl;
     "ðŸ› **Bathrooms:** ";
     pretty (dp_bathrooms pd);
     nl;
     "ðŸ“ **Square Feet:** ";
     pretty (dp_square_feet pd);
     " sq ft";
     nl;
     "ðŸ—ï¸ **Year Built:** ";
     match dp_year_built pd with Some y => pretty y | None => "N/A" end;
     nl;
     "ðŸ…¿ï¸ **Parking:** ";
     default "N/A" (dp_parking pd);
     nl;
     nl;
     "âœ¨ **Amenities:**";
     nl;
     String.concat ", " (default [] (dp_amenities pd));
     nl;
     nl;
     "ðŸ“ **Description:**";
     nl;
     default "No description available." (dp_description pd);
     nl;
     nl;
     "ðŸ“Š **Availability:** ";
     if default false (dp_available pd) then "Available" else "Not Available";
     nl;
     nl;
     "Would you like to schedule a viewing or get more information about this property?"].

(** [PropertyDetailsTool._run] (its [except] branch is unreachable). *)
Definition property_details_run (property_id : string) : string :=
  match get_detailed_property_info property_id with
  | None => String.concat EmptyString ["Property with ID "; property_id; " not found."]
  | Some pd => details_text pd
  end.

(** ** Concrete inputs *)

(** A delegate that always answers ["ok"]. *)
Definition delegate_ok : string -> string -> DelegateOutcome := fun _ _ => DOk "ok".

(** A delegate that always raises with an internal message. *)
Definition delegate_raise : string -> string -> DelegateOutcome :=
  fun _ _ => DRaise "connection to llm backend failed: api key sk-test".

(** Redis up and empty; conversation [c1] stored with no messages. *)
Definition w_fresh : World := mkWorld (Some ∅) (Some {[ "c1" := [] ]}) [] [].

(** Redis holding [count] for user [u] with expiry [exp]. *)
Definition w_counted (count : Z) (exp : option Z) : World :=
  mkWorld (Some {[ rate_limit_key "u" := mkEntry count exp ]}) (Some {[ "c1" := [] ]}) [] [].

(** [n] messages from [u] at time [now]; the statuses of the replies. *)
Fixpoint send_many (d : string -> string -> DelegateOutcome) (n : nat) (now : Z) (w : World)
    : list (option JVal) * World :=
  match n with
  | O => ([], w)
  | S n' =>
      let '(res, w1) := send_message d no_faults now "t0" "u" "hi" None None w in
      let st := match res with inr r => dict_get r "status" | inl _ => None end in
      let '(l, w2) := send_many d n' now w1 in
      (st :: l, w2)
  end.

(** ** Facts about the model *)

Ltac run_m :=
  unfold add_call, add_log, set_redis, bind, ret, raise, try_except, get_world, modify, log_error in *; cbn in *.

(** The admission decision [_is_rate_limited] reaches. *)
Definition decision (f : Faults) (now : Z) (user_id : string) (w : World) : bool :=
  match redis w with
  | None => false
  | Some r =>
      if get_raises f then false
      else 30 <? default 0 (option_map count (live_lookup now r (rate_limit_key user_id)))
  end.

(** The dict [process_message] returns for a delegate outcome. *)
Definition turn_dict (o : DelegateOutcome) (conversation_id : option string) (ts : string) : Dict :=
  match o with
  | DOk r => success_dict r conversation_id ts
  | DRaise e => error_dict e
  end.

(** The entry [INCR] then [EXPIRE key 60] leave for a key. *)
Definition bumped (now : Z) (r : gmap string Entry) (k : string) : Entry :=
  mkEntry (default 0 (option_map count (live_lookup now r k)) + 1) (Some (now + 60)).

Lemma is_rate_limited_eq f now u w :
  is_rate_limited f now u w = (inr (decision f now u w), w).
Proof.
  unfold is_rate_limited, decision, r_get, store_of. run_m.
  destruct (redis w) eqn:E; [|reflexivity].
  destruct (get_raises f); cbn; [reflexivity|]. rewrite E. reflexivity.
Qed.

Section ServiceFacts.

Variable delegate : string -> string -> DelegateOutcome.

Lemma process_message_eq msg u cid ctx ts w :
  let '(res, w') := process_message delegate msg u cid ctx ts w in
  res = inr (turn_dict (delegate (enhanced_input msg ctx) u) cid ts) /\
  redis w' = redis w /\ db w' = db w /\
  calls w' = calls w ++ [(enhanced_input msg ctx, u)].
Proof.
  unfold process_message, arun, load_conversation_history, save_conversation,
    db_session_pass. destruct w as [r d l c]. run_m.
  destruct (truthy_str cid); cbn; destruct d; cbn;
    destruct (delegate (enhanced_input msg ctx) u); cbn; auto.
Qed.

Lemma update_rate_limit_total f now u w :
  let '(res, w') := update_rate_limit f now u w in
  res = inr tt /\ db w' = db w /\ calls w' = calls w.
Proof.
  unfold update_rate_limit, r_incr, r_expire. destruct w as [r d l c]. run_m.
  destruct r; cbn; [|auto].
  destruct (incr_raises f); cbn; [auto|].
  destruct (expire_raises f); cbn; [auto|].
  unfold store_of; cbn.
  repeat (destruct (live_lookup _ _ _); cbn); auto.
Qed.

Lemma live_lookup_insert_eq now (r : gmap string Entry) k e :
  live now e = true -> live_lookup now (<[k := e]> r) k = Some e.
Proof. intros H. unfold live_lookup. rewrite lookup_insert_eq, H. reflexivity. Qed.

Lemma update_rate_limit_bump f now u w (r : gmap string Entry) :
  incr_raises f = false -> expire_raises f = false -> redis w = Some r ->
  redis (snd (update_rate_limit f now u w)) =
  Some (<[rate_limit_key u := bumped now r (rate_limit_key u)]> r).
Proof.
  intros Hi He Hr. destruct w as [r0 d l c]; cbn in Hr; subst r0.
  unfold update_rate_limit, r_incr, r_expire. rewrite Hi, He. run_m.
  unfold store_of; cbn. unfold bumped.
  destruct (live_lookup now r (rate_limit_key u)) as [e|] eqn:L; cbn.
  - assert (Hl : live now e = true).
    { unfold live_lookup in L. destruct (r !! rate_limit_key u); [|discriminate].
      destruct (live now e0) eqn:?; inversion L; subst; assumption. }
    rewrite live_lookup_insert_eq by (unfold live in *; cbn; exact Hl).
    cbn. rewrite insert_insert_eq. reflexivity.
  - rewrite live_lookup_insert_eq by reflexivity.
    cbn. rewrite insert_insert_eq. reflexivity.
Qed.

(** The dict [send_message] returns. *)
Definition send_dict f now ts u msg cid ctx w : Dict :=
  if decision f now u w then rate_limited_dict
  else turn_dict (delegate (enhanced_input msg ctx) u) cid ts.

Lemma send_message_fst f now ts u msg cid ctx w :
  fst (send_message delegate f now ts u msg cid ctx w) = inr (send_dict f now ts u msg cid ctx w).
Proof.
  unfold send_message, send_dict. unfold bind at 1. rewrite is_rate_limited_eq.
  destruct (decision f now u w); [reflexivity|].
  unfold bind.
  pose proof (process_message_eq msg u cid ctx ts w) as P.
  destruct (process_message delegate msg u cid ctx ts w) as [res w1].
  destruct P as [-> _].
  pose proof (update_rate_limit_total f now u w1) as U.
  destruct (update_rate_limit f now u w1) as [res2 w2].
  destruct U as [-> _]. reflexivity.
Qed.

Lemma send_message_rejected f now ts u msg cid ctx w :
  decision f now u w = true ->
  send_message delegate f now ts u msg cid ctx w = (inr rate_limited_dict, w).
Proof.
  intros D. unfold send_message. unfold bind at 1. rewrite is_rate_limited_eq, D. reflexivity.
Qed.

Lemma send_message_admitted f now ts u msg cid ctx w :
  decision f now u w = false ->
  let '(res, w') := send_message delegate f now ts u msg cid ctx w in
  res = inr (turn_dict (delegate (enhanced_input msg ctx) u) cid ts) /\
  calls w' = calls w ++ [(enhanced_input msg ctx, u)] /\ db w' = db w.
Proof.
  intros D. unfold send_message. unfold bind at 1. rewrite is_rate_limited_eq, D.
  unfold bind.
  pose proof (process_message_eq msg u cid ctx ts w) as P.
  destruct (process_message delegate msg u cid ctx ts w) as [res w1].
  destruct P as [-> [_ [Hdb Hc]]].
  pose proof (update_rate_limit_total f now u w1) as U.
  destruct (update_rate_limit f now u w1) as [res2 w2].
  destruct U as [-> [Hdb2 Hc2]]. cbn. rewrite Hc2, Hdb2. auto.
Qed.

Lemma send_message_admitted_redis f now ts u msg cid ctx w (r : gmap string Entry) :
  decision f now u w = false -> incr_raises f = false -> expire_raises f = false ->
  redis w = Some r ->
  redis (snd (send_message delegate f now ts u msg cid ctx w)) =
  Some (<[rate_limit_key u := bumped now r (rate_limit_key u)]> r).
Proof.
  intros D Hi He Hr. unfold send_message. unfold bind at 1. rewrite is_rate_limited_eq, D.
  unfold bind.
  pose proof (process_message_eq msg u cid ctx ts w) as P.
  destruct (process_message delegate msg u cid ctx ts w) as [res w1].
  destruct P as [-> [Hr1 _]].
  pose proof (update_rate_limit_bump f now u w1 r Hi He (eq_trans Hr1 Hr)) as B.
  pose proof (update_rate_limit_total f now u w1) as U.
  destruct (update_rate_limit f now u w1) as [res2 w2].
  destruct U as [-> _]. exact B.
Qed.

(** The [ChatResponse] that [POST /chat] builds. *)
Definition route_response f now ts u msg (cid : option string) ctx w : ChatResponse :=
  if decision f now u w then mkChatResponse rate_limited_response None ts "rate_limited" None
  else match delegate (enhanced_input msg ctx) u with
       | DOk r => mkChatResponse r cid ts "success" None
       | DRaise _ => mkChatResponse fallback_response None ts "error" None
       end.

Lemma chat_route_fst f now ts u msg cid ctx w :
  fst (chat_route delegate f now ts u msg cid ctx w) =
  inr (Http200 (route_response f now ts u msg cid ctx w)).
Proof.
  pose proof (send_message_fst f now ts u msg cid ctx w) as S.
  unfold chat_route, try_except. unfold bind at 1.
  destruct (send_message delegate f now ts u msg cid ctx w) as [res w1].
  cbn in S. subst res.
  unfold send_dict, route_response, get_suggested_actions.
  destruct (decision f now u w);
    [|destruct (delegate (enhanced_input msg ctx) u)];
    destruct cid as [c|]; cbn;
    try (destruct (negb (c =? EmptyString)%string); cbn);
    reflexivity.
Qed.

End ServiceFacts.

(** ** Claims *)

(** C1 (code_bug). From an empty counter, 32 messages from one user at
    time 0: the first 31 replies have status [success] and only the 32nd
    is [rate_limited], since [_is_rate_limited] tests [count > 30] on the
    count before the increment (its comment says 30 messages per minute).
    The last admitted message set the expiry to 60: a message at time 60
    is still rejected, and one at time 61, once the key is gone, is
    admitted again. *)
Theorem C1_thirty_first_message_admitted :
  fst (send_many delegate_ok 32 0 w_fresh) =
    repeat (Some (JStr "success")) 31 ++ [Some (JStr "rate_limited")] /\
  fst (send_many delegate_ok 1 60 (snd (send_many delegate_ok 32 0 w_fresh))) =
    [Some (JStr "rate_limited")] /\
  fst (send_many delegate_ok 1 61 (snd (send_many delegate_ok 32 0 w_fresh))) =
    [Some (JStr "success")].
Proof. repeat split; vm_compute; reflexivity. Qed.

(** C2 (counterexample). A [POST /chat] request with no conversation id
    gets a response whose [conversation_id] is null. *)
Lemma C2_conversation_id_not_minted :
  fst (chat_route delegate_ok no_faults 0 "t0" "u" "hi" None None w_fresh) =
  inr (Http200 (mkChatResponse "ok" None "t0" "success" None)).
Proof. vm_compute. reflexivity. Qed.

(** C2 (amended). For every request with a null conversation id,
    [POST /chat] answers with a [ChatResponse] whose [conversation_id] is
    null: no id is minted on any path. *)
Theorem C2_null_conversation_id_stays_null delegate f now ts u msg ctx w :
  exists r, fst (chat_route delegate f now ts u msg None ctx w) = inr (Http200 r) /\
            cr_conversation_id r = None.
Proof.
  eexists. split; [apply chat_route_fst|].
  unfold route_response. destruct (decision f now u w); [reflexivity|].
  destruct (delegate (enhanced_input msg ctx) u); reflexivity.
Qed.

(** C3 (counterexample). When the delegate raises, the dict the websocket
    route serializes and sends carries the raw exception text under
    ["error"]. *)
Lemma C3_websocket_leaks_exception_text :
  fst (websocket_turn delegate_raise no_faults 0 "t0" "u" "hi" (Some "c1") None w_fresh) =
  inr [("response", JStr fallback_response);
       ("error", JStr "connection to llm backend failed: api key sk-test");
       ("status", JStr "error")].
Proof. vm_compute. reflexivity. Qed.

(** C3 (amended). For an admitted request on which the delegate raises
    [e], [send_message] returns status ["error"] with the fixed fallback
    text as ["response"] and [str(e)] under ["error"]; the websocket route
    sends that dict as it is, while [POST /chat] answers with the fallback
    text, status ["error"] and no exception text. *)
Theorem C3_delegate_failure_response delegate f now ts u msg cid ctx w e :
  fst (is_rate_limited f now u w) = inr false ->
  delegate (enhanced_input msg ctx) u = DRaise e ->
  fst (websocket_turn delegate f now ts u msg cid ctx w) =
    inr [("response", JStr fallback_response); ("error", JStr e); ("status", JStr "error")] /\
  fst (chat_route delegate f now ts u msg cid ctx w) =
    inr (Http200 (mkChatResponse fallback_response None ts "error" None)).
Proof.
  intros L D. rewrite is_rate_limited_eq in L. cbn in L. injection L as L.
  split.
  - unfold websocket_turn. rewrite send_message_fst. unfold send_dict.
    rewrite L, D. reflexivity.
  - rewrite chat_route_fst. unfold route_response. rewrite L, D. reflexivity.
Qed.

(** C4. A request rejected by [_is_rate_limited] gets status
    ["rate_limited"] with the fixed backoff text; the delegate is not
    called and neither the counters nor the conversation store change. *)
Theorem C4_rejected_request delegate f now ts u msg cid ctx w :
  fst (is_rate_limited f now u w) = inr true ->
  let '(res, w') := send_message delegate f now ts u msg cid ctx w in
  res = inr [("response", JStr rate_limited_response); ("status", JStr "rate_limited")] /\
  calls w' = calls w /\ redis w' = redis w /\ db w' = db w.
Proof.
  intros L. rewrite is_rate_limited_eq in L. cbn in L. injection L as L.
  rewrite send_message_rejected by exact L. auto.
Qed.

(** C5 (counterexample). A user at count 5 whose key expires at 30 sends
    an admitted message at time 10: the expiry moves to 70. *)
Lemma C5_expiry_refreshed_on_existing_record :
  redis (snd (send_message delegate_ok no_faults 10 "t0" "u" "hi" None None (w_counted 5 (Some 30)))) =
    Some {[ rate_limit_key "u" := mkEntry 6 (Some 70) ]} /\
  redis (snd (send_message delegate_ok no_faults 10 "t0" "u" "hi" None None (w_counted 5 (Some 30)))) <>
    Some {[ rate_limit_key "u" := mkEntry 6 (Some 30) ]}.
Proof.
  split; vm_compute; [reflexivity|].
  intros H. injection H as H. discriminate H.
Qed.

(** C5 (amended). On every admitted message, when [INCR] and [EXPIRE]
    succeed, the user's counter goes up by 1 (from 0 when the key is
    missing or expired) and its expiry is set to now + 60, whether the
    key was new or not. *)
Theorem C5_admitted_bumps_and_refreshes delegate f now ts u msg cid ctx w
    (r : gmap string Entry) :
  fst (is_rate_limited f now u w) = inr false ->
  incr_raises f = false -> expire_raises f = false -> redis w = Some r ->
  redis (snd (send_message delegate f now ts u msg cid ctx w)) =
  Some (<[rate_limit_key u :=
           mkEntry (default 0 (option_map count (live_lookup now r (rate_limit_key u))) + 1)
                   (Some (now + 60))]> r).
Proof.
  intros L Hi He Hr. rewrite is_rate_limited_eq in L. cbn in L. injection L as L.
  apply send_message_admitted_redis; assumption.
Qed.

(** C6 (code_bug). After a successful turn on conversation [c1], whose
    stored message list is empty, the list is still empty: the turn is
    not appended, because the body of [_save_conversation] (documented as
    saving the conversation to the database) is a [pass] placeholder. *)
Lemma C6_turn_not_appended :
  ~ exists s : gmap string (list Turn),
      db (snd (process_message delegate_ok "hi" "u" (Some "c1") None "t0" w_fresh)) = Some s /\
      s !! "c1" = Some [("hi", "ok", "t0")].
Proof.
  intros [s [Hs Hl]]. vm_compute in Hs. injection Hs as <-.
  vm_compute in Hl. discriminate Hl.
Qed.

(** X7. When the delegate answers [r], [process_message] returns the
    success dict with [r], whatever the database state; the conversation
    store is left as it was (the save step writes nothing), and when the
    database pool is not initialized the save failure is logged. *)
Theorem process_message_store_unchanged delegate msg u cid ctx ts w r :
  delegate (enhanced_input msg ctx) u = DOk r ->
  let '(res, w') := process_message delegate msg u cid ctx ts w in
  res = inr (success_dict r cid ts) /\ db w' = db w /\
  (db w = None -> In (String.append "Error saving conversation: " pool_error) (log w')).
Proof.
  intros D.
  pose proof (process_message_eq delegate msg u cid ctx ts w) as P.
  rewrite D in P.
  destruct (process_message delegate msg u cid ctx ts w) as [res w'] eqn:E.
  destruct P as [Hres [_ [Hdb _]]]. split; [exact Hres|]. split; [exact Hdb|].
  intros N. destruct w as [rd d l c]; cbn in N; subst d.
  unfold process_message, arun, load_conversation_history, save_conversation,
    db_session_pass in E. run_m. rewrite D in E.
  destruct (truthy_str cid); cbn in E; injection E as _ <-; cbn;
    apply in_or_app; right; left; reflexivity.
Qed.

(** C7. Fail-open admission: with no Redis client, or when [GET] raises,
    [_is_rate_limited] answers [False] and the delegate is called; and
    whatever Redis operations raise, [send_message] returns a dict rather
    than raising. *)
Theorem C7_counter_store_fail_open delegate f now ts u msg cid ctx w :
  ((redis w = None \/ get_raises f = true) ->
   fst (is_rate_limited f now u w) = inr false /\
   calls (snd (send_message delegate f now ts u msg cid ctx w)) =
     calls w ++ [(enhanced_input msg ctx, u)]) /\
  exists d, fst (send_message delegate f now ts u msg cid ctx w) = inr d.
Proof.
  split.
  - intros H.
    assert (D : decision f now u w = false).
    { unfold decision. destruct H as [H | H]; rewrite H; [reflexivity|].
      destruct (redis w); reflexivity. }
    split; [rewrite is_rate_limited_eq, D; reflexivity|].
    pose proof (send_message_admitted delegate f now ts u msg cid ctx w D) as A.
    destruct (send_message delegate f now ts u msg cid ctx w) as [res w'].
    apply A.
  - eexists. apply send_message_fst.
Qed.

(** C8. A reply with status ["rate_limited"] leaves the counters exactly
    as they were: no increment and no new expiry. *)
Theorem C8_rejection_keeps_counter delegate f now ts u msg cid ctx w d :
  fst (send_message delegate f now ts u msg cid ctx w) = inr d ->
  dict_get d "status" = Some (JStr "rate_limited") ->
  redis (snd (send_message delegate f now ts u msg cid ctx w)) = redis w.
Proof.
  intros S St. rewrite send_message_fst in S. injection S as <-.
  unfold send_dict in St. destruct (decision f now u w) eqn:D.
  - rewrite send_message_rejected by exact D. reflexivity.
  - destruct (delegate (enhanced_input msg ctx) u); discriminate St.
Qed.

(** C9 (counterexample). A request on conversation [c1] from a user
    already at count 31 is answered with a null [conversation_id]. *)
Lemma C9_rate_limited_drops_conversation_id :
  fst (chat_route delegate_ok no_faults 0 "t0" "u" "hi" (Some "c1") None (w_counted 31 (Some 60))) =
  inr (Http200 (mkChatResponse rate_limited_response None "t0" "rate_limited" None)).
Proof. vm_compute. reflexivity. Qed.

(** C9 (amended). For a request carrying conversation id [c],
    [POST /chat] answers with null suggestions; when the status is
    ["success"] the response's [conversation_id] is [c], and when it is
    ["rate_limited"] it is null. *)
Theorem C9_existing_conversation_response delegate f now ts u msg c ctx w :
  exists r, fst (chat_route delegate f now ts u msg (Some c) ctx w) = inr (Http200 r) /\
    cr_suggestions r = None /\
    (cr_status r = "success" -> cr_conversation_id r = Some c) /\
    (cr_status r = "rate_limited" -> cr_conversation_id r = None).
Proof.
  eexists. split; [apply chat_route_fst|].
  unfold route_response. destruct (decision f now u w);
    [|destruct (delegate (enhanced_input msg ctx) u)]; cbn;
    repeat split; intros H; solve [reflexivity | discriminate H].
Qed.

(** C10. [get_suggested_actions] returns the empty list, and every
    [POST /chat] request is answered with null suggestions. *)
Theorem C10_suggestions_always_null delegate f now ts u msg cid ctx w :
  fst (get_suggested_actions u w) = inr [] /\
  exists r, fst (chat_route delegate f now ts u msg cid ctx w) = inr (Http200 r) /\
            cr_suggestions r = None.
Proof.
  split; [reflexivity|].
  eexists. split; [apply chat_route_fst|].
  unfold route_response. destruct (decision f now u w); [reflexivity|].
  destruct (delegate (enhanced_input msg ctx) u); reflexivity.
Qed.

(** ** Witnesses *)

Lemma C3_witness :
  fst (is_rate_limited no_faults 0 "u" w_fresh) = inr false /\
  delegate_raise (enhanced_input "hi" None) "u" =
    DRaise "connection to llm backend failed: api key sk-test" /\
  fst (websocket_turn delegate_raise no_faults 0 "t0" "u" "hi" (Some "c1") None w_fresh) =
    inr [("response", JStr fallback_response);
         ("error", JStr "connection to llm backend failed: api key sk-test");
         ("status", JStr "error")] /\
  fst (chat_route delegate_raise no_faults 0 "t0" "u" "hi" (Some "c1") None w_fresh) =
    inr (Http200 (mkChatResponse fallback_response None "t0" "error" None)).
Proof.
  split; [vm_compute; reflexivity|]. split; [reflexivity|].
  apply (C3_delegate_failure_response delegate_raise no_faults 0 "t0" "u" "hi" (Some "c1") None
           w_fresh "connection to llm backend failed: api key sk-test");
    [vm_compute; reflexivity | reflexivity].
Defined.

Lemma C4_witness :
  fst (is_rate_limited no_faults 0 "u" (w_counted 31 (Some 60))) = inr true /\
  let '(res, w') := send_message delegate_ok no_faults 0 "t0" "u" "hi" (Some "c1") None
                      (w_counted 31 (Some 60)) in
  res = inr [("response", JStr rate_limited_response); ("status", JStr "rate_limited")] /\
  calls w' = calls (w_counted 31 (Some 60)) /\ redis w' = redis (w_counted 31 (Some 60)) /\
  db w' = db (w_counted 31 (Some 60)).
Proof.
  split; [vm_compute; reflexivity|].
  apply (C4_rejected_request delegate_ok no_faults 0 "t0" "u" "hi" (Some "c1") None
           (w_counted 31 (Some 60))).
  vm_compute; reflexivity.
Defined.

Lemma C5_witness :
  fst (is_rate_limited no_faults 10 "u" (w_counted 5 (Some 30))) = inr false /\
  redis (snd (send_message delegate_ok no_faults 10 "t0" "u" "hi" None None (w_counted 5 (Some 30)))) =
  Some (<[rate_limit_key "u" :=
           mkEntry (default 0 (option_map count
                      (live_lookup 10 {[ rate_limit_key "u" := mkEntry 5 (Some 30) ]}
                         (rate_limit_key "u"))) + 1)
                   (Some (10 + 60))]> {[ rate_limit_key "u" := mkEntry 5 (Some 30) ]}).
Proof.
  split; [vm_compute; reflexivity|].
  apply (C5_admitted_bumps_and_refreshes delegate_ok no_faults 10 "t0" "u" "hi" None None
           (w_counted 5 (Some 30)) {[ rate_limit_key "u" := mkEntry 5 (Some 30) ]});
    [vm_compute | | | ]; reflexivity.
Defined.

Lemma process_message_store_unchanged_witness :
  delegate_ok (enhanced_input "hi" None) "u" = DOk "ok" /\
  let '(res, w') := process_message delegate_ok "hi" "u" (Some "c1") None "t0"
                      (mkWorld (Some ∅) None [] []) in
  res = inr (success_dict "ok" (Some "c1") "t0") /\ db w' = None /\
  (@None (gmap string (list Turn)) = None ->
   In (String.append "Error saving conversation: " pool_error) (log w')).
Proof.
  split; [reflexivity|].
  apply (process_message_store_unchanged delegate_ok "hi" "u" (Some "c1") None "t0"
           (mkWorld (Some ∅) None [] []) "ok").
  reflexivity.
Defined.

Lemma C7_witness :
  redis (mkWorld None (Some ∅) [] []) = None /\
  fst (is_rate_limited no_faults 0 "u" (mkWorld None (Some ∅) [] [])) = inr false /\
  calls (snd (send_message delegate_ok no_faults 0 "t0" "u" "hi" None None (mkWorld None (Some ∅) [] []))) =
    [(enhanced_input "hi" None, "u")].
Proof.
  split; [reflexivity|].
  apply (proj1 (C7_counter_store_fail_open delegate_ok no_faults 0 "t0" "u" "hi" None None
                  (mkWorld None (Some ∅) [] []))).
  left; reflexivity.
Defined.

Lemma C8_witness :
  fst (send_message delegate_ok no_faults 0 "t0" "u" "hi" None None (w_counted 31 (Some 60))) =
    inr rate_limited_dict /\
  dict_get rate_limited_dict "status" = Some (JStr "rate_limited") /\
  redis (snd (send_message delegate_ok no_faults 0 "t0" "u" "hi" None None (w_counted 31 (Some 60)))) =
    redis (w_counted 31 (Some 60)).
Proof.
  split; [vm_compute; reflexivity|]. split; [reflexivity|].
  apply (C8_rejection_keeps_counter delegate_ok no_faults 0 "t0" "u" "hi" None None
           (w_counted 31 (Some 60)) rate_limited_dict); [vm_compute|]; reflexivity.
Defined.

(** ** Further properties of the service and routes *)

Lemma rate_limit_key_inj u v : rate_limit_key u = rate_limit_key v -> u = v.
Proof. unfold rate_limit_key. intros H. exact (inj (String.append "rate_limit:") _ _ H). Qed.

Lemma update_rate_limit_frame f now u w k :
  k <> rate_limit_key u ->
  store_of (snd (update_rate_limit f now u w)) !! k = store_of w !! k.
Proof.
  intros Hk. destruct w as [r d l c].
  unfold update_rate_limit, r_incr, r_expire. run_m.
  destruct r as [r|]; cbn; [|reflexivity].
  destruct (incr_raises f); cbn; [reflexivity|].
  unfold store_of; cbn.
  destruct (expire_raises f); cbn; [rewrite lookup_insert_ne by congruence; reflexivity|].
  destruct (live_lookup now (<[_ := _]> r) _); cbn;
    rewrite ?lookup_insert_ne by congruence; reflexivity.
Qed.

Lemma decision_counter f now u w (r : gmap string Entry) :
  redis w = Some r -> get_raises f = false -> decision f now u w = (30 <? counter now u w).
Proof. intros Hr Hg. unfold decision, counter, store_of. rewrite Hr, Hg. reflexivity. Qed.

Lemma is_rejection_turn_dict o cid ts : is_rejection (turn_dict o cid ts) = false.
Proof. destruct o; reflexivity. Qed.

(** One message with the counter at most 30: admitted, counter + 1. *)
Lemma send_step_admit d now ts u msg cid ctx w (r : gmap string Entry) :
  redis w = Some r -> counter now u w <= 30 ->
  let '(res, w') := send_message d no_faults now ts u msg cid ctx w in
  res = inr (turn_dict (d (enhanced_input msg ctx) u) cid ts) /\
  counter now u w' = counter now u w + 1 /\ redis w' <> None.
Proof.
  intros Hr Hc.
  assert (D : decision no_faults now u w = false).
  { rewrite (decision_counter no_faults now u w r Hr eq_refl). apply Z.ltb_ge. lia. }
  pose proof (send_message_fst d no_faults now ts u msg cid ctx w) as S.
  pose proof (send_message_admitted_redis d no_faults now ts u msg cid ctx w r D
                eq_refl eq_refl Hr) as R.
  destruct (send_message d no_faults now ts u msg cid ctx w) as [res w'].
  cbn in S, R. unfold send_dict in S. rewrite D in S. split; [exact S|].
  split; [|rewrite R; discriminate].
  unfold counter at 1, store_of. rewrite R.
  rewrite live_lookup_insert_eq by (cbn; apply Z.leb_le; lia).
  unfold counter, store_of. rewrite Hr. reflexivity.
Qed.

Lemma burst_shape d now ts u msg cid ctx :
  forall n w (c : nat), redis w <> None -> counter now u w = Z.of_nat c -> (c <= 31)%nat ->
  map is_rejection (fst (burst d n now ts u msg cid ctx w)) =
  repeat false (Nat.min n (31 - c)) ++ repeat true (n - (31 - c)).
Proof.
  induction n as [|n IH]; intros w c Hr Hc Hle; [reflexivity|].
  destruct (redis w) as [r|] eqn:Er; [|congruence].
  cbn [burst].
  destruct (Nat.le_gt_cases c 30) as [Hlt|Hge].
  - pose proof (send_step_admit d now ts u msg cid ctx w r Er ltac:(lia)) as A.
    destruct (send_message d no_faults now ts u msg cid ctx w) as [res w1].
    destruct A as [-> [Hc1 Hr1]].
    specialize (IH w1 (S c) Hr1 ltac:(lia) ltac:(lia)).
    destruct (burst d n now ts u msg cid ctx w1) as [l w2]. cbn in IH |- *.
    rewrite is_rejection_turn_dict, IH.
    replace (31 - c)%nat with (S (31 - S c)) by lia. reflexivity.
  - assert (c = 31)%nat as -> by lia.
    rewrite send_message_rejected
      by (rewrite (decision_counter no_faults now u w r Er eq_refl), Hc; reflexivity).
    specialize (IH w 31%nat ltac:(congruence) Hc Hle).
    destruct (burst d n now ts u msg cid ctx w) as [l w2]. cbn in IH |- *.
    rewrite IH, Nat.min_0_r, Nat.sub_0_r. reflexivity.
Qed.

(** X1. A message from user [u] never touches another user's counter. *)
Theorem send_message_other_users_untouched delegate f now ts u v msg cid ctx w :
  u <> v ->
  store_of (snd (send_message delegate f now ts u msg cid ctx w)) !! rate_limit_key v =
  store_of w !! rate_limit_key v.
Proof.
  intros Huv. unfold send_message. unfold bind at 1. rewrite is_rate_limited_eq.
  destruct (decision f now u w); [reflexivity|].
  unfold bind.
  pose proof (process_message_eq delegate msg u cid ctx ts w) as P.
  destruct (process_message delegate msg u cid ctx ts w) as [res w1].
  destruct P as [-> [Hr1 _]].
  pose proof (update_rate_limit_frame f now u w1 (rate_limit_key v)) as F.
  destruct (update_rate_limit f now u w1) as [res2 w2]. cbn in F |- *.
  destruct res2; cbn; rewrite F by (intros H; apply Huv, rate_limit_key_inj; congruence);
    unfold store_of; rewrite Hr1; reflexivity.
Qed.

(** X2. A user whose key has expired is admitted, and the key restarts
    at 1 with expiry now + 60. *)
Theorem expired_window_restarts delegate now ts u msg cid ctx w (r : gmap string Entry) e :
  redis w = Some r -> r !! rate_limit_key u = Some e -> live now e = false ->
  fst (is_rate_limited no_faults now u w) = inr false /\
  redis (snd (send_message delegate no_faults now ts u msg cid ctx w)) =
    Some (<[rate_limit_key u := mkEntry 1 (Some (now + 60))]> r).
Proof.
  intros Hr He Hl.
  assert (L : live_lookup now r (rate_limit_key u) = None).
  { unfold live_lookup. rewrite He, Hl. reflexivity. }
  assert (D : decision no_faults now u w = false).
  { unfold decision. rewrite Hr, L. reflexivity. }
  split; [rewrite is_rate_limited_eq, D; reflexivity|].
  rewrite (send_message_admitted_redis delegate no_faults now ts u msg cid ctx w r D
             eq_refl eq_refl Hr).
  unfold bumped. rewrite L. reflexivity.
Qed.

(** X3. Messages sent at one instant by a user with no live counter:
    the first 31 are admitted and every later one is rejected. *)
Theorem burst_admits_31 delegate n now ts u msg cid ctx w (r : gmap string Entry) :
  redis w = Some r -> live_lookup now r (rate_limit_key u) = None ->
  map is_rejection (fst (burst delegate n now ts u msg cid ctx w)) =
  repeat false (Nat.min n 31) ++ repeat true (n - 31).
Proof.
  intros Hr Hl.
  apply (burst_shape delegate now ts u msg cid ctx n w 0%nat); [congruence| |lia].
  unfold counter, store_of. rewrite Hr, Hl. reflexivity.
Qed.

(** X4. The health endpoint always answers ["healthy"]; the
    [chatbot_status] it reports is ["rate_limited"] exactly when the
    ["health_check"] user is over the limit. *)
Theorem chatbot_health_always_healthy delegate f now ts w :
  exists st,
    fst (chatbot_health delegate f now ts w) =
      inr [("status", JStr "healthy"); ("timestamp", JStr ts); ("chatbot_status", JStr st)] /\
    (st = "rate_limited" <-> decision f now "health_check" w = true).
Proof.
  pose proof (send_message_fst delegate f now ts "health_check" "ping" None
                (Some [("test", JBool true)]) w) as S.
  unfold chatbot_health, try_except. unfold bind at 1.
  destruct (send_message delegate f now ts "health_check" "ping" None _ w) as [res w1].
  cbn in S. subst res. unfold send_dict.
  destruct (decision f now "health_check" w).
  - exists "rate_limited". split; [reflexivity | split; reflexivity].
  - destruct (delegate _ "health_check");
      [exists "success" | exists "error"]; split; [reflexivity| |reflexivity|];
      split; discriminate.
Qed.

Lemma websocket_loop_prefix delegate f now ts u tail :
  forall good sent w, forallb well_formed good = true ->
  exists replies w', List.length replies = List.length good /\
    websocket_loop delegate f now ts u (good ++ tail) sent w =
    websocket_loop delegate f now ts u tail (sent ++ replies) w'.
Proof.
  induction good as [|fr good IH]; intros sent w Hg.
  - exists [], w. rewrite app_nil_r. split; reflexivity.
  - destruct fr as [m c x | e]; [|discriminate].
    cbn in Hg.
    pose proof (send_message_fst delegate f now ts u m c x w) as S.
    cbn [app websocket_loop]. unfold bind at 1, try_except. unfold bind at 1.
    destruct (send_message delegate f now ts u m c x w) as [res w1].
    cbn in S. subst res. unfold ret at 1.
    destruct (IH (sent ++ [send_dict delegate f now ts u m c x w]) w1 Hg)
      as (replies & w' & Hl & Hw).
    exists (send_dict delegate f now ts u m c x w :: replies), w'.
    split; [cbn; congruence|]. rewrite Hw, <- app_assoc. reflexivity.
Qed.

(** X5. Over a websocket, each well-formed frame gets exactly one reply
    and the socket stays open; the first malformed frame makes the
    handler close the socket with code 1000 after the replies to the
    frames before it. *)
Theorem websocket_one_reply_per_frame delegate f now ts u good e rest w :
  forallb well_formed good = true ->
  (exists sent, fst (websocket_chat delegate f now ts u good w) = inr (sent, None) /\
                List.length sent = List.length good) /\
  (exists sent, fst (websocket_chat delegate f now ts u (good ++ FrameBad e :: rest) w) =
                  inr (sent, Some 1000) /\ List.length sent = List.length good).
Proof.
  intros Hg. split.
  - destruct (websocket_loop_prefix delegate f now ts u [] good [] w Hg)
      as (replies & w' & Hl & Hw).
    rewrite app_nil_r in Hw.
    exists replies. unfold websocket_chat. unfold bind at 1. rewrite Hw.
    split; [reflexivity|exact Hl].
  - destruct (websocket_loop_prefix delegate f now ts u (FrameBad e :: rest) good [] w Hg)
      as (replies & w' & Hl & Hw).
    exists replies. unfold websocket_chat. unfold bind at 1. rewrite Hw.
    split; [reflexivity|exact Hl].
Qed.

(** X6. [send_message] calls the delegate once when the request is
    admitted and never when it is rejected; the delegate gets the raw
    message when the context is missing or empty. *)
Theorem send_message_delegate_calls delegate f now ts u msg cid ctx w :
  calls (snd (send_message delegate f now ts u msg cid ctx w)) =
    calls w ++ (if decision f now u w then [] else [(enhanced_input msg ctx, u)]) /\
  ((ctx = None \/ ctx = Some []) -> enhanced_input msg ctx = msg).
Proof.
  split; [|intros [-> | ->]; reflexivity].
  destruct (decision f now u w) eqn:D.
  - rewrite send_message_rejected by exact D. cbn. rewrite app_nil_r. reflexivity.
  - pose proof (send_message_admitted delegate f now ts u msg cid ctx w D) as A.
    destruct (send_message delegate f now ts u msg cid ctx w) as [res w'].
    apply A.
Qed.

(** ** Further properties of the property tools *)

Lemma str_truthy_false s : str_truthy s = false <-> s = EmptyString.
Proof.
  unfold str_truthy. destruct (String.eqb_spec s EmptyString); cbn; split; congruence.
Qed.

Lemma z_truthy_false b : z_truthy b = false <-> b = 0%Z.
Proof.
  unfold z_truthy. rewrite <- Z.eqb_eq. destruct (b =? 0)%Z; cbn; split; congruence.
Qed.

Lemma min_guard_false (mn : option PyFloat) (v : Z) :
  match mn with Some x => float_truthy x && int_lt_float v x | None => false end = false <->
  (forall q, mn = Some (PFin q) -> ~ (q == 0)%Q -> (q <= inject_Z v)%Q) /\ mn <> Some PInf.
Proof.
  destruct mn as [[q| | |]|]; cbn.
  - rewrite andb_false_iff, !negb_false_iff, Qeq_bool_iff, Qle_bool_iff. split.
    + intros [H|H]; (split; [|discriminate]); intros q' Hq Hn; injection Hq as <-;
        [contradiction | exact H].
    + intros [H _]. destruct (Qeq_bool q 0) eqn:E; [left; now apply Qeq_bool_iff|].
      right. apply H; [reflexivity|]. intros Z. apply Qeq_bool_iff in Z. congruence.
  - split; [discriminate | intros [_ H]; contradiction H; reflexivity].
  - split; [intros _; split; [intros ? Hq; discriminate Hq | discriminate] | reflexivity].
  - split; [intros _; split; [intros ? Hq; discriminate Hq | discriminate] | reflexivity].
  - split; [intros _; split; [intros ? Hq; discriminate Hq | discriminate] | reflexivity].
Qed.

Lemma max_guard_false (mx : option PyFloat) (v : Z) :
  match mx with Some x => float_truthy x && int_gt_float v x | None => false end = false <->
  (forall q, mx = Some (PFin q) -> ~ (q == 0)%Q -> (inject_Z v <= q)%Q) /\ mx <> Some PNegInf.
Proof.
  destruct mx as [[q| | |]|]; cbn.
  - rewrite andb_false_iff, !negb_false_iff, Qeq_bool_iff, Qle_bool_iff. split.
    + intros [H|H]; (split; [|discriminate]); intros q' Hq Hn; injection Hq as <-;
        [contradiction | exact H].
    + intros [H _]. destruct (Qeq_bool q 0) eqn:E; [left; now apply Qeq_bool_iff|].
      right. apply H; [reflexivity|]. intros Z. apply Qeq_bool_iff in Z. congruence.
  - split; [intros _; split; [intros ? Hq; discriminate Hq | discriminate] | reflexivity].
  - split; [discriminate | intros [_ H]; contradiction H; reflexivity].
  - split; [intros _; split; [intros ? Hq; discriminate Hq | discriminate] | reflexivity].
  - split; [intros _; split; [intros ? Hq; discriminate Hq | discriminate] | reflexivity].
Qed.

Lemma bed_guard_false (bd : option Z) (v : Z) :
  match bd with Some b => z_truthy b && negb (v =? b)%Z | None => false end = false <->
  (forall b, bd = Some b -> b <> 0%Z -> v = b).
Proof.
  destruct bd as [b|]; [|split; [discriminate | reflexivity]].
  rewrite andb_false_iff, negb_false_iff, z_truthy_false, Z.eqb_eq. split.
  - intros [H|H] y Hy Hn; injection Hy as <-; [contradiction|exact H].
  - intros H. destruct (Z.eq_dec b 0) as [E|E]; [left; exact E | right; apply H; auto].
Qed.

Lemma loc_guard_false (loc : option string) (hay : string) :
  match loc with Some l => str_truthy l && negb (contains (lower l) hay) | None => false end
    = false <->
  (forall l, loc = Some l -> l <> EmptyString -> contains (lower l) hay = true).
Proof.
  destruct loc as [l|]; [|split; [discriminate | reflexivity]].
  rewrite andb_false_iff, negb_false_iff, str_truthy_false. split.
  - intros [H|H] y Hy Hn; injection Hy as <-; [contradiction|exact H].
  - intros H. destruct (String.eqb_spec l EmptyString) as [E|E];
      [left; exact E | right; apply H; auto].
Qed.

Lemma passes_true sp p :
  passes sp p = true <->
  ((forall q, sp_min_price sp = Some (PFin q) -> ~ (q == 0)%Q -> (q <= inject_Z (p_price p))%Q) /\
   sp_min_price sp <> Some PInf) /\
  ((forall q, sp_max_price sp = Some (PFin q) -> ~ (q == 0)%Q -> (inject_Z (p_price p) <= q)%Q) /\
   sp_max_price sp <> Some PNegInf) /\
  (forall b, sp_bedrooms sp = Some b -> b <> 0%Z -> p_bedrooms p = b) /\
  (forall l, sp_location sp = Some l -> l <> EmptyString ->
     contains (lower l) (lower (p_address p)) = true).
Proof.
  rewrite <- min_guard_false, <- max_guard_false, <- bed_guard_false, <- loc_guard_false.
  unfold passes.
  destruct (match sp_min_price sp with Some _ => _ | None => _ end),
    (match sp_max_price sp with Some _ => _ | None => _ end),
    (match sp_bedrooms sp with Some _ => _ | None => _ end),
    (match sp_location sp with Some _ => _ | None => _ end);
    intuition congruence.
Qed.

Lemma lower_empty s : lower s = EmptyString <-> s = EmptyString.
Proof. destruct s; cbn; split; congruence. Qed.

Lemma prefix_append s t : String.prefix s (String.append s t) = true.
Proof.
  induction s as [|a s IH]; [destruct t; reflexivity|].
  change (String.append (String a s) t) with (String a (String.append s t)).
  unfold String.prefix; fold String.prefix.
  destruct (Ascii.ascii_dec a a); [exact IH | contradiction].
Qed.

(** X8. A mock property is in the search result exactly when every filter
    that is present and truthy holds for it: a finite minimum or maximum
    price bounds the price (bounds included), a minimum of +inf or a
    maximum of -inf keeps nothing, a NaN bound keeps everything, the
    bedroom count must be equal, and the location must be a substring of
    the address, both lowered. *)
Theorem search_properties_iff sp p :
  In p (search_properties sp) <->
  In p mock_properties /\
  ((forall q, sp_min_price sp = Some (PFin q) -> ~ (q == 0)%Q -> (q <= inject_Z (p_price p))%Q) /\
   sp_min_price sp <> Some PInf) /\
  ((forall q, sp_max_price sp = Some (PFin q) -> ~ (q == 0)%Q -> (inject_Z (p_price p) <= q)%Q) /\
   sp_max_price sp <> Some PNegInf) /\
  (forall b, sp_bedrooms sp = Some b -> b <> 0%Z -> p_bedrooms p = b) /\
  (forall l, sp_location sp = Some l -> l <> EmptyString ->
     contains (lower l) (lower (p_address p)) = true).
Proof.
  unfold search_properties. rewrite List.filter_In, passes_true. reflexivity.
Qed.

Lemma run_of_search l pt mn mx bd bt am l' pt' mn' mx' bd' bt' am' :
  search_properties (build_search_params l pt mn mx bd bt am) =
  search_properties (build_search_params l' pt' mn' mx' bd' bt' am') ->
  property_search_run l pt mn mx bd bt am = property_search_run l' pt' mn' mx' bd' bt' am'.
Proof. intros E. unfold property_search_run. cbv zeta. rewrite E. reflexivity. Qed.

(** X9. Each of a minimum price of 0, a maximum price of 0 and a
    bedroom count of 0 is ignored by the property search on its own,
    whatever the other parameters: the text is the one of the search
    without it (so [max_price=0] lists every property rather than none). *)
Theorem search_zero_filters_ignored loc pt mn mx bd bt am q :
  (q == 0)%Q ->
  property_search_run loc pt (Some (PFin q)) mx bd bt am =
    property_search_run loc pt None mx bd bt am /\
  property_search_run loc pt mn (Some (PFin q)) bd bt am =
    property_search_run loc pt mn None bd bt am /\
  property_search_run loc pt mn mx (Some 0%Z) bt am =
    property_search_run loc pt mn mx None bt am.
Proof.
  intros Hq.
  assert (T : float_truthy (PFin q) = false).
  { cbn. rewrite (proj2 (Qeq_bool_iff q 0) Hq). reflexivity. }
  repeat split; apply run_of_search; unfold search_properties; apply List.filter_ext;
    intros p; unfold passes, build_search_params;
    cbn [sp_min_price sp_max_price sp_bedrooms sp_location]; rewrite ?T; reflexivity.
Qed.

(** X10. The property search text does not depend on the property type,
    the bathroom count or the amenities: they are put in the search
    parameters but no filter reads them. *)
Theorem search_ignores_type_baths_amenities loc pt pt' mn mx bd bt bt' am am' :
  property_search_run loc pt mn mx bd bt am = property_search_run loc pt' mn mx bd bt' am'.
Proof. reflexivity. Qed.

(** X11. The location filter is case-insensitive: two locations with the
    same lowering give the same search text. *)
Theorem search_location_case_insensitive l l' pt mn mx bd bt am :
  lower l = lower l' ->
  property_search_run (Some l) pt mn mx bd bt am = property_search_run (Some l') pt mn mx bd bt am.
Proof.
  intros H.
  assert (T : str_truthy l = str_truthy l').
  { destruct l, l'; cbn in H; solve [discriminate H | reflexivity]. }
  assert (E : search_properties (build_search_params (Some l) pt mn mx bd bt am) =
              search_properties (build_search_params (Some l') pt mn mx bd bt am)).
  { unfold search_properties. apply List.filter_ext. intros p.
    unfold passes, build_search_params; cbn [sp_location].
    rewrite T. destruct (str_truthy l') eqn:B; cbv beta iota; [rewrite H, T, B|]; reflexivity. }
  unfold property_search_run. cbv zeta. rewrite E. reflexivity.
Qed.

Lemma header_not_required : String.prefix booking_header booking_required_message = false.
Proof. reflexivity. Qed.

Lemma header_not_not_found pid :
  String.prefix booking_header
    (String.concat EmptyString ["Error: Property with ID "; pid; " not found."]) = false.
Proof. reflexivity. Qed.

Lemma header_confirmation pi bt d t bid :
  String.prefix booking_header (booking_confirmation pi bt d t bid) = true.
Proof. unfold booking_confirmation. cbn [String.concat]. apply prefix_append. Qed.

(** X12. The booking tool answers with a confirmation exactly when both
    the property id and the user id are non-empty and the property id is
    one of the two known ones; an empty id gives the required-fields
    error, and an unknown non-empty id the not-found error naming it. *)
Theorem property_booking_outcomes pid uid bt d t notes hex :
  (String.prefix booking_header (property_booking_run pid uid bt d t notes hex) = true <->
   (pid = "prop_123" \/ pid = "prop_456") /\ uid <> EmptyString) /\
  ((pid = EmptyString \/ uid = EmptyString) ->
   property_booking_run pid uid bt d t notes hex = booking_required_message) /\
  (pid <> EmptyString -> uid <> EmptyString -> pid <> "prop_123" -> pid <> "prop_456" ->
   property_booking_run pid uid bt d t notes hex =
   String.append "Error: Property with ID " (String.append pid " not found.")).
Proof.
  unfold property_booking_run.
  destruct (str_truthy pid) eqn:P; [destruct (str_truthy uid) eqn:U|]; cbn [negb orb].
  - assert (Hp : pid <> EmptyString) by (intros ->; discriminate P).
    assert (Hu : uid <> EmptyString) by (intros ->; discriminate U).
    unfold get_property_info.
    destruct (String.eqb_spec pid "prop_123") as [E1|E1];
      [|destruct (String.eqb_spec pid "prop_456") as [E2|E2]].
    + rewrite header_confirmation. split; [tauto|]. split; [|tauto].
      intros [H|H]; contradiction.
    + rewrite header_confirmation. split; [tauto|]. split; [|tauto].
      intros [H|H]; contradiction.
    + rewrite header_not_not_found. split; [|split].
      * split; [discriminate | intros [[H|H] _]; contradiction].
      * intros [H|H]; contradiction.
      * intros _ _ _ _. reflexivity.
  - apply str_truthy_false in U. rewrite header_not_required.
    split; [split; [discriminate | tauto] | split; [reflexivity | tauto]].
  - apply str_truthy_false in P. rewrite header_not_required.
    split; [split; [discriminate | intros [[H|H] _]; subst; discriminate] |
            split; [reflexivity | tauto]].
Qed.

(** X13. The details tool answers with the not-found text for every
    property id but [prop_123]; so [prop_456], which the search lists
    and the booking tool confirms, has no details. *)
Theorem property_details_not_found_iff pid :
  property_details_run pid =
    String.append "Property with ID " (String.append pid " not found.") <->
  pid <> "prop_123".
Proof.
  unfold property_details_run, get_detailed_property_info.
  destruct (String.eqb_spec pid "prop_123") as [->|E].
  - split; [intros H; vm_compute in H; discriminate H | intros H; contradiction H; reflexivity].
  - split; [intros _; exact E | intros _; reflexivity].
Qed.

(** ** Witnesses of the further properties *)

Lemma send_message_other_users_untouched_witness :
  "u" <> "v" /\
  store_of (snd (send_message delegate_ok no_faults 0 "t0" "u" "hi" None None (w_counted 3 (Some 60))))
    !! rate_limit_key "v" =
  store_of (w_counted 3 (Some 60)) !! rate_limit_key "v".
Proof.
  split; [discriminate|].
  apply (send_message_other_users_untouched delegate_ok no_faults 0 "t0" "u" "v" "hi" None None
           (w_counted 3 (Some 60))).
  discriminate.
Defined.

Lemma expired_window_restarts_witness :
  redis (w_counted 5 (Some 30)) = Some ({[ rate_limit_key "u" := mkEntry 5 (Some 30) ]} : gmap string Entry) /\
  ({[ rate_limit_key "u" := mkEntry 5 (Some 30) ]} : gmap string Entry) !! rate_limit_key "u" = Some (mkEntry 5 (Some 30)) /\
  live 40 (mkEntry 5 (Some 30)) = false /\
  fst (is_rate_limited no_faults 40 "u" (w_counted 5 (Some 30))) = inr false /\
  redis (snd (send_message delegate_ok no_faults 40 "t0" "u" "hi" None None (w_counted 5 (Some 30)))) =
    Some (<[rate_limit_key "u" := mkEntry 1 (Some (40 + 60))]>
            ({[ rate_limit_key "u" := mkEntry 5 (Some 30) ]} : gmap string Entry)).
Proof.
  split; [reflexivity|]. split; [vm_compute; reflexivity|]. split; [reflexivity|].
  apply (expired_window_restarts delegate_ok 40 "t0" "u" "hi" None None (w_counted 5 (Some 30))
           ({[ rate_limit_key "u" := mkEntry 5 (Some 30) ]} : gmap string Entry) (mkEntry 5 (Some 30)));
    [reflexivity | vm_compute; reflexivity | reflexivity].
Defined.

Lemma burst_admits_31_witness :
  redis w_fresh = Some ∅ /\
  live_lookup 0 ∅ (rate_limit_key "u") = None /\
  map is_rejection (fst (burst delegate_ok 33 0 "t0" "u" "hi" None None w_fresh)) =
    repeat false (Nat.min 33 31) ++ repeat true (33 - 31).
Proof.
  split; [reflexivity|]. split; [vm_compute; reflexivity|].
  apply (burst_admits_31 delegate_ok 33 0 "t0" "u" "hi" None None w_fresh ∅);
    [reflexivity | vm_compute; reflexivity].
Defined.

Lemma chatbot_health_always_healthy_witness :
  exists st,
    fst (chatbot_health delegate_ok no_faults 0 "t0" w_fresh) =
      inr [("status", JStr "healthy"); ("timestamp", JStr "t0"); ("chatbot_status", JStr st)] /\
    (st = "rate_limited" <-> decision no_faults 0 "health_check" w_fresh = true).
Proof. exact (chatbot_health_always_healthy delegate_ok no_faults 0 "t0" w_fresh). Defined.

Lemma websocket_one_reply_per_frame_witness :
  forallb well_formed [FrameText "hi" None None; FrameText "again" (Some "c1") None] = true /\
  ((exists sent, fst (websocket_chat delegate_ok no_faults 0 "t0" "u"
                        [FrameText "hi" None None; FrameText "again" (Some "c1") None] w_fresh) =
                   inr (sent, None) /\ List.length sent = 2%nat) /\
   (exists sent, fst (websocket_chat delegate_ok no_faults 0 "t0" "u"
                        ([FrameText "hi" None None; FrameText "again" (Some "c1") None] ++
                         FrameBad "invalid json" :: [FrameText "late" None None]) w_fresh) =
                   inr (sent, Some 1000) /\ List.length sent = 2%nat)).
Proof.
  split; [reflexivity|].
  apply (websocket_one_reply_per_frame delegate_ok no_faults 0 "t0" "u"
           [FrameText "hi" None None; FrameText "again" (Some "c1") None] "invalid json"
           [FrameText "late" None None] w_fresh).
  reflexivity.
Defined.

Lemma send_message_delegate_calls_witness :
  (None = @None Dict \/ None = Some (@nil (string * JVal))) /\
  calls (snd (send_message delegate_ok no_faults 0 "t0" "u" "hi" None None w_fresh)) =
    calls w_fresh ++ (if decision no_faults 0 "u" w_fresh then [] else [(enhanced_input "hi" None, "u")]) /\
  enhanced_input "hi" None = "hi".
Proof.
  pose proof (send_message_delegate_calls delegate_ok no_faults 0 "t0" "u" "hi" None None w_fresh)
    as [A B].
  split; [left; reflexivity|]. split; [exact A|]. apply B. left; reflexivity.
Defined.

Lemma search_properties_iff_witness :
  In (mkProperty "prop_456" "Cozy Suburban House" "456 Oak Ave, Suburbs" 3200 3 2 1800
        ["garden"; "garage"; "fireplace"])
     (search_properties (mkSearchParams None None (Some PNaN) (Some (PFin (3000 # 1)))
                           None None None)) <->
  In (mkProperty "prop_456" "Cozy Suburban House" "456 Oak Ave, Suburbs" 3200 3 2 1800
        ["garden"; "garage"; "fireplace"]) mock_properties /\
  ((forall q, Some PNaN = Some (PFin q) -> ~ (q == 0)%Q -> (q <= inject_Z 3200)%Q) /\
   Some PNaN <> Some PInf) /\
  ((forall q, Some (PFin (3000 # 1)) = Some (PFin q) -> ~ (q == 0)%Q -> (inject_Z 3200 <= q)%Q) /\
   Some (PFin (3000 # 1)) <> Some PNegInf) /\
  (forall b, @None Z = Some b -> b <> 0%Z -> 3%Z = b) /\
  (forall l, @None string = Some l -> l <> EmptyString ->
     contains (lower l) (lower "456 Oak Ave, Suburbs") = true).
Proof.
  exact (search_properties_iff (mkSearchParams None None (Some PNaN) (Some (PFin (3000 # 1)))
                                  None None None)
           (mkProperty "prop_456" "Cozy Suburban House" "456 Oak Ave, Suburbs" 3200 3 2 1800
              ["garden"; "garage"; "fireplace"])).
Defined.

Lemma search_zero_filters_ignored_witness :
  (0 == 0)%Q /\
  property_search_run None None (Some (PFin 0)) (Some (PFin (3000 # 1))) (Some 2%Z) None None =
    property_search_run None None None (Some (PFin (3000 # 1))) (Some 2%Z) None None /\
  property_search_run None None (Some (PFin (2000 # 1))) (Some (PFin 0)) (Some 2%Z) None None =
    property_search_run None None (Some (PFin (2000 # 1))) None (Some 2%Z) None None /\
  property_search_run None None (Some (PFin (2000 # 1))) (Some (PFin (3000 # 1))) (Some 0%Z) None None =
    property_search_run None None (Some (PFin (2000 # 1))) (Some (PFin (3000 # 1))) None None None.
Proof.
  split; [reflexivity|].
  apply (search_zero_filters_ignored None None (Some (PFin (2000 # 1))) (Some (PFin (3000 # 1)))
           (Some 2%Z) None None 0%Q).
  reflexivity.
Defined.

Lemma search_location_case_insensitive_witness :
  lower "DownTown" = lower "downtown" /\
  property_search_run (Some "DownTown") None None None None None None =
  property_search_run (Some "downtown") None None None None None None.
Proof.
  split; [vm_compute; reflexivity|].
  apply (search_location_case_insensitive "DownTown" "downtown" None None None None None None).
  vm_compute; reflexivity.
Defined.

Lemma property_booking_outcomes_witness :
  property_booking_run "prop_999" "user_1" "viewing" "2025-01-01" "10:00" None "0123456789abcdef" =
    String.append "Error: Property with ID " (String.append "prop_999" " not found.") /\
  String.prefix booking_header
    (property_booking_run "prop_456" "user_1" "viewing" "2025-01-01" "10:00" None "0123456789abcdef")
    = true.
Proof.
  split.
  - apply (proj2 (proj2 (property_booking_outcomes "prop_999" "user_1" "viewing" "2025-01-01"
                           "10:00" None "0123456789abcdef"))); discriminate.
  - apply (proj1 (property_booking_outcomes "prop_456" "user_1" "viewing" "2025-01-01"
                    "10:00" None "0123456789abcdef")).
    split; [right; reflexivity | discriminate].
Defined.

Lemma property_details_not_found_iff_witness :
  ("prop_456" <> "prop_123") /\
  (property_details_run "prop_456" =
     String.append "Property with ID " (String.append "prop_456" " not found.")) /\
  (get_property_info "prop_456" <> None).
Proof.
  split; [discriminate|]. split; [|discriminate].
  apply (proj2 (property_details_not_found_iff "prop_456")). discriminate.
Defined.
